(** * Flask-Learning: the handlers of [app.py]

    A shallow embedding of the five route handlers of [app.py] and of the
    module-level state they share ([counter] and [cards]).  Handlers are
    computations in a state monad over the module globals, so that what a
    handler reads and writes is visible in its definition. *)

From Stdlib Require Import String Ascii List ZArith Lia.
From Stdlib Require Import DecimalString DecimalZ.
From Stdlib Require Import Permutation.
From ExtLib Require Import Structures.Monad Structures.MonadState.
From ExtLib Require Import Data.Monads.StateMonad.
Import ListNotations.
Import MonadNotation.
Local Open Scope string_scope.
Local Open Scope monad_scope.

(** ** Python values used by the module *)

Module Py.

(** [str(n)] for a Python [int]: the decimal digits, most significant
    first, with a leading minus sign for a negative number.  Python
    integers are unbounded, hence [Z].  (The interpreter's limit on the
    number of digits of a conversion is the subject of [str_int_limited]
    below.) *)
Definition str_int (n : Z) : string :=
  NilZero.string_of_int (Z.to_int n).

(** The exception a conversion from [int] to [str] raises when the
    number has too many digits. *)
Inductive exn : Type :=
| ValueError.

(** [sys.get_int_max_str_digits()] as the interpreter starts (CPython
    3.11 and later). *)
Definition int_max_str_digits : nat := 4300.

(** The number of digit characters of [str(n)]; a minus sign does not
    count. *)
Definition digits (n : Z) : nat := String.length (str_int (Z.abs n)).

(** [str(n)] under that limit: [ValueError] when [n] has more digits
    than [int_max_str_digits], the decimal rendering otherwise. *)
Definition str_int_limited (n : Z) : exn + string :=
  if Nat.ltb int_max_str_digits (digits n) then inl ValueError
  else inr (str_int n).

(** [s.rjust(width, "0")] for a string of digits, as produced by the
    ["%0<width>d"] conversions of a non-negative number. *)
Fixpoint zeros (k : nat) : string :=
  match k with
  | O => ""
  | S k' => String "0" (zeros k')
  end.

Definition zfill (width : nat) (s : string) : string :=
  zeros (width - String.length s) ++ s.

Definition fmt_d (width : nat) (n : nat) : string :=
  zfill width (str_int (Z.of_nat n)).

(** A naive [datetime.datetime] value, as [datetime.now()] returns it.
    [fold] is 0 or 1, here [false] or [true]; [datetime.now()] sets it
    to 1 for the second pass through a wall-clock hour that is repeated
    when the clock is set back. *)
Record datetime : Type := mk_datetime {
  year : nat;
  month : nat;
  day : nat;
  hour : nat;
  minute : nat;
  second : nat;
  microsecond : nat;
  fold : bool
}.

(** [str(dt)] is [dt.isoformat(sep=" ")]: the date as [%04d-%02d-%02d],
    a space, the time as [%02d:%02d:%02d], and [.%06d] microseconds
    only when they are not zero.  [fold] is not printed. *)
Definition str_datetime (dt : datetime) : string :=
  fmt_d 4 (year dt) ++ "-" ++ fmt_d 2 (month dt) ++ "-" ++ fmt_d 2 (day dt)
  ++ " "
  ++ fmt_d 2 (hour dt) ++ ":" ++ fmt_d 2 (minute dt) ++ ":" ++ fmt_d 2 (second dt)
  ++ (if Nat.eqb (microsecond dt) 0 then ""
      else "." ++ fmt_d 6 (microsecond dt)).

(** The ranges the [datetime] constructor accepts ([MINYEAR] is 1 and
    [MAXYEAR] is 9999); [datetime.now()] returns a value within them. *)
Definition datetime_ok (dt : datetime) : bool :=
  ((1 <=? Z.of_nat (year dt)) && (Z.of_nat (year dt) <=? 9999)
   && (1 <=? Z.of_nat (month dt)) && (Z.of_nat (month dt) <=? 12)
   && (1 <=? Z.of_nat (day dt)) && (Z.of_nat (day dt) <=? 31)
   && (Z.of_nat (hour dt) <=? 23) && (Z.of_nat (minute dt) <=? 59)
   && (Z.of_nat (second dt) <=? 59)
   && (Z.of_nat (microsecond dt) <=? 999999))%bool%Z.

(** A [dict] literal with string keys and string values, in insertion
    order. *)
Definition dict : Type := list (string * string).

(** [d[key]]; [None] stands for [KeyError]. *)
Fixpoint getitem (d : dict) (key : string) : option string :=
  match d with
  | [] => None
  | (k, v) :: d' => if String.eqb k key then Some v else getitem d' key
  end.

End Py.

(** ** Module globals *)

(** The two module-level names the handlers can see: [counter] (line 7)
    and [cards] (lines 9-13). *)
Record Globals : Type := mk_globals {
  counter : Z;
  cards : list Py.dict
}.

(** The [cards] literal of lines 9-13. *)
Definition cards_literal : list Py.dict :=
  [ [("question", "Hola"); ("answer", "Hello")];
    [("question", "Merci"); ("answer", "Thanks")];
    [("question", "Ciao"); ("answer", "Bye")] ].

(** The globals once the module body has run: [counter = 0] and the
    [cards] literal. *)
Definition module_init : Globals :=
  {| counter := 0; cards := cards_literal |}.

(** A handler runs against the module globals and returns the response
    body. *)
Definition handler : Type := state Globals string.

(** [global counter; counter += 1]: read the global, add one, store it. *)
Definition incr_counter : state Globals unit :=
  g <- get ;;
  put {| counter := counter g + 1; cards := cards g |}.

(** The f-string of [count_views], applied to the value of [counter]. *)
Definition views_message (n : Z) : string :=
  "This page was viewed " ++ Py.str_int n ++ " times.".

(** Lines 27-31. *)
Definition count_views : handler :=
  incr_counter ;;
  g <- get ;;
  ret (views_message (counter g)).

(** Lines 27-31 with the interpreter's limit on the conversion of
    [counter] in the f-string.  The increment is stored before the
    f-string is evaluated, so it is kept when the conversion raises. *)
Definition count_views_limited : state Globals (Py.exn + string) :=
  incr_counter ;;
  g <- get ;;
  ret (match Py.str_int_limited (counter g) with
       | inl e => inl e
       | inr s => inr ("This page was viewed " ++ s ++ " times.")
       end).

(** Lines 19-21. *)
Definition about : handler :=
  ret "This is a simple mini project using Flask basics.".

(** Lines 23-25.  [now] is the value [datetime.now()] returns when the
    handler runs: the wall clock is an input of the handler. *)
Definition date (now : Py.datetime) : handler :=
  ret ("Current server time: " ++ Py.str_datetime now).

(** Lines 33-35.  An f-string interpolates a [str] as it is. *)
Definition name (name : string) : handler :=
  ret ("Hello " ++ name ++ "!").

(** The question and the answer of a card, as a pair. *)
Definition card_pair (c : Py.dict) : option string * option string :=
  (Py.getitem c "question", Py.getitem c "answer").

Section App.

(** The keyword arguments of a [render_template] call: here only
    [cards=...]. *)
Definition context : Type := list (string * list Py.dict).

(** Flask's [render_template] together with the template files: an
    external function of the template name and the context. *)
Variable render_template : string -> context -> string.

(** Lines 15-17. *)
Definition home : handler :=
  g <- get ;;
  ret (render_template "home.html" [("cards", cards g)]).

(** A request that reached one of the five routes, with what the route
    extracts from it; a [/date] request carries the reading of the wall
    clock at the time it is handled. *)
Inductive Request : Type :=
| GetHome
| GetAbout
| GetDate (now : Py.datetime)
| GetCountViews
| GetHello (segment : string).

(** The route table built by the [@app.route] decorators. *)
Definition dispatch (r : Request) : handler :=
  match r with
  | GetHome => home
  | GetAbout => about
  | GetDate now => date now
  | GetCountViews => count_views
  | GetHello segment => name segment
  end.

(** Requests served one after the other by a single thread; the result
    lists the response bodies in order. *)
Fixpoint serve (reqs : list Request) : state Globals (list string) :=
  match reqs with
  | [] => ret []
  | r :: reqs' =>
      body <- dispatch r ;;
      bodies <- serve reqs' ;;
      ret (body :: bodies)
  end.

(** The number of [/count_views] requests in a sequence. *)
Fixpoint count_requests (reqs : list Request) : Z :=
  match reqs with
  | [] => 0
  | GetCountViews :: reqs' => 1 + count_requests reqs'
  | _ :: reqs' => count_requests reqs'
  end.

End App.

Example str_int_0 : Py.str_int 0 = "0".
Proof. reflexivity. Qed.

Example str_int_1205 : Py.str_int 1205 = "1205".
Proof. reflexivity. Qed.

Example str_int_neg : Py.str_int (-37) = "-37".
Proof. reflexivity. Qed.

Example str_datetime_us :
  Py.str_datetime (Py.mk_datetime 2024 3 9 7 5 1 4200 false)
  = "2024-03-09 07:05:01.004200".
Proof. reflexivity. Qed.

Example str_datetime_whole :
  Py.str_datetime (Py.mk_datetime 2024 12 31 23 59 59 0 false)
  = "2024-12-31 23:59:59".
Proof. reflexivity. Qed.

Example str_datetime_fold :
  Py.str_datetime (Py.mk_datetime 2026 10 25 2 30 0 0 true)
  = "2026-10-25 02:30:00".
Proof. reflexivity. Qed.

Example count_views_limited_first :
  runState count_views_limited module_init
  = (inr "This page was viewed 1 times.",
     {| counter := 1; cards := cards_literal |}).
Proof. reflexivity. Qed.

Example count_views_twice :
  runState (a <- count_views ;; b <- count_views ;; ret (a, b)) module_init
  = (("This page was viewed 1 times.", "This page was viewed 2 times."),
     {| counter := 2; cards := cards_literal |}).
Proof. reflexivity. Qed.

(** ** Running handlers *)

Section Facts.

Variable render_template : string -> context -> string.

Local Open Scope Z_scope.

#[local] Abbreviation dispatch := (dispatch render_template).
#[local] Abbreviation serve := (serve render_template).
#[local] Abbreviation home := (home render_template).

(** What each handler returns and the globals it leaves. *)

Lemma run_count_views (g : Globals) :
  runState count_views g
  = (views_message (counter g + 1),
     {| counter := counter g + 1; cards := cards g |}).
Proof. reflexivity. Qed.

Lemma run_about (g : Globals) :
  runState about g
  = ("This is a simple mini project using Flask basics.", g).
Proof. reflexivity. Qed.

Lemma run_date (now : Py.datetime) (g : Globals) :
  runState (date now) g
  = ("Current server time: " ++ Py.str_datetime now, g).
Proof. reflexivity. Qed.

Lemma run_name (segment : string) (g : Globals) :
  runState (name segment) g = ("Hello " ++ segment ++ "!", g).
Proof. reflexivity. Qed.

Lemma run_home (g : Globals) :
  runState home g = (render_template "home.html" [("cards", cards g)], g).
Proof. reflexivity. Qed.

(** Serving a sequence, one request at a time. *)

Lemma run_serve_nil (g : Globals) : runState (serve []) g = ([], g).
Proof. reflexivity. Qed.

Lemma run_serve_cons (r : Request) (reqs : list Request) (g : Globals) :
  runState (serve (r :: reqs)) g
  = (evalState (dispatch r) g
       :: evalState (serve reqs) (execState (dispatch r) g),
     execState (serve reqs) (execState (dispatch r) g)).
Proof.
  unfold evalState, execState. simpl.
  destruct (runState (dispatch r) g) as [body g1]. simpl.
  destruct (runState (serve reqs) g1) as [bodies g2]. reflexivity.
Qed.

Lemma exec_serve_cons (r : Request) (reqs : list Request) (g : Globals) :
  execState (serve (r :: reqs)) g
  = execState (serve reqs) (execState (dispatch r) g).
Proof. unfold execState at 1. rewrite run_serve_cons. reflexivity. Qed.

Lemma eval_serve_cons (r : Request) (reqs : list Request) (g : Globals) :
  evalState (serve (r :: reqs)) g
  = evalState (dispatch r) g
      :: evalState (serve reqs) (execState (dispatch r) g).
Proof. unfold evalState at 1. rewrite run_serve_cons. reflexivity. Qed.

Lemma exec_serve_app (reqs1 reqs2 : list Request) (g : Globals) :
  execState (serve (reqs1 ++ reqs2)) g
  = execState (serve reqs2) (execState (serve reqs1) g).
Proof.
  revert g. induction reqs1 as [| r reqs1 IH]; intros g.
  - reflexivity.
  - rewrite <- app_comm_cons, !exec_serve_cons. apply IH.
Qed.

Lemma eval_serve_app (reqs1 reqs2 : list Request) (g : Globals) :
  evalState (serve (reqs1 ++ reqs2)) g
  = (evalState (serve reqs1) g
       ++ evalState (serve reqs2) (execState (serve reqs1) g))%list.
Proof.
  revert g. induction reqs1 as [| r reqs1 IH]; intros g.
  - reflexivity.
  - rewrite <- app_comm_cons, !eval_serve_cons, exec_serve_cons, IH.
    reflexivity.
Qed.

Lemma eval_serve_length (reqs : list Request) (g : Globals) :
  length (evalState (serve reqs) g) = length reqs.
Proof.
  revert g. induction reqs as [| r reqs IH]; intros g.
  - reflexivity.
  - rewrite eval_serve_cons. simpl. now rewrite IH.
Qed.

(** The effect of one request on each global. *)

Lemma dispatch_counter (r : Request) (g : Globals) :
  counter (execState (dispatch r) g) = counter g + count_requests [r].
Proof. destruct r; unfold execState; simpl; lia. Qed.

Lemma dispatch_cards (r : Request) (g : Globals) :
  cards (execState (dispatch r) g) = cards g.
Proof. destruct r; reflexivity. Qed.

Lemma count_requests_cons (r : Request) (reqs : list Request) :
  count_requests (r :: reqs) = count_requests [r] + count_requests reqs.
Proof. destruct r; simpl; lia. Qed.

Lemma count_requests_app (reqs1 reqs2 : list Request) :
  count_requests (reqs1 ++ reqs2)
  = count_requests reqs1 + count_requests reqs2.
Proof.
  induction reqs1 as [| r reqs1 IH]; [reflexivity |].
  rewrite <- app_comm_cons, count_requests_cons,
    (count_requests_cons r reqs1), IH. lia.
Qed.

Lemma count_requests_nonneg (reqs : list Request) :
  0 <= count_requests reqs.
Proof.
  induction reqs as [| r reqs IH]; [cbn [count_requests]; lia |].
  rewrite count_requests_cons. destruct r; cbn [count_requests]; lia.
Qed.

Lemma serve_counter (reqs : list Request) (g : Globals) :
  counter (execState (serve reqs) g) = counter g + count_requests reqs.
Proof.
  revert g. induction reqs as [| r reqs IH]; intros g.
  - unfold execState. simpl. lia.
  - rewrite exec_serve_cons, IH, dispatch_counter,
      (count_requests_cons r reqs). lia.
Qed.

Lemma serve_cards (reqs : list Request) (g : Globals) :
  cards (execState (serve reqs) g) = cards g.
Proof.
  revert g. induction reqs as [| r reqs IH]; intros g.
  - reflexivity.
  - rewrite exec_serve_cons, IH. apply dispatch_cards.
Qed.

(** [N] requests to [/count_views] in a row. *)

Lemma count_requests_repeat (N : nat) :
  count_requests (repeat GetCountViews N) = Z.of_nat N.
Proof.
  induction N as [| N IH]; [reflexivity |].
  change (repeat GetCountViews (S N))
    with (GetCountViews :: repeat GetCountViews N).
  rewrite count_requests_cons, IH. cbn [count_requests]. lia.
Qed.

Lemma eval_serve_repeat (N k : nat) (g : Globals) :
  (k < N)%nat ->
  nth_error (evalState (serve (repeat GetCountViews N)) g) k
  = Some (views_message (counter g + Z.of_nat (S k))).
Proof.
  revert k g. induction N as [| N IH]; intros k g Hk; [lia |].
  change (repeat GetCountViews (S N))
    with (GetCountViews :: repeat GetCountViews N).
  rewrite eval_serve_cons. destruct k as [| k].
  - simpl. do 2 f_equal.
  - simpl nth_error. rewrite IH by lia. do 2 f_equal.
    unfold execState. rewrite run_count_views. cbn [snd counter]. lia.
Qed.

End Facts.

(** ** The view counter *)

Section Counter.

Variable render_template : string -> context -> string.

Local Open Scope Z_scope.

#[local] Abbreviation dispatch := (dispatch render_template).
#[local] Abbreviation serve := (serve render_template).

(** C1: starting from the freshly loaded module ([counter = 0]), [N >= 1]
    requests to [/count_views] served one after the other produce [N]
    bodies, the [N]th of which is "This page was viewed N times." with
    [N] written in decimal, and leave [counter] equal to [N]. *)
Theorem count_views_nth_invocation (N : nat) :
  (1 <= N)%nat ->
  length (evalState (serve (repeat GetCountViews N)) module_init) = N
  /\ nth_error (evalState (serve (repeat GetCountViews N)) module_init)
       (N - 1)
     = Some ("This page was viewed " ++ Py.str_int (Z.of_nat N) ++ " times.")
  /\ counter (execState (serve (repeat GetCountViews N)) module_init)
     = Z.of_nat N.
Proof.
  intros HN. split; [| split].
  - rewrite eval_serve_length. apply repeat_length.
  - rewrite eval_serve_repeat by lia.
    replace (S (N - 1)) with N by lia. reflexivity.
  - rewrite serve_counter, count_requests_repeat. reflexivity.
Qed.

(** C2: one request changes [counter] by exactly one when it is a
    [/count_views] request and not at all otherwise; so the counter never
    decreases, neither in one step nor along a longer run, and from the
    freshly loaded module it equals the number of [/count_views] requests
    served so far. *)
Theorem counter_invariant :
  (forall (r : Request) (g : Globals),
      counter (execState (dispatch r) g)
      = counter g + match r with GetCountViews => 1 | _ => 0 end)
  /\ (forall (r : Request) (g : Globals),
         counter g <= counter (execState (dispatch r) g))
  /\ (forall (reqs1 reqs2 : list Request) (g : Globals),
         counter (execState (serve reqs1) g)
         <= counter (execState (serve (reqs1 ++ reqs2)) g))
  /\ (forall reqs : list Request,
         counter (execState (serve reqs) module_init) = count_requests reqs).
Proof.
  repeat split.
  - intros r g. rewrite dispatch_counter. destruct r; reflexivity.
  - intros r g. rewrite dispatch_counter.
    pose proof (count_requests_nonneg [r]). lia.
  - intros reqs1 reqs2 g. rewrite exec_serve_app, (serve_counter _ reqs2).
    pose proof (count_requests_nonneg reqs2). lia.
  - intros reqs. rewrite serve_counter. reflexivity.
Qed.

(** C4: [counter] is an unbounded integer.  For every [N] it holds
    exactly [N] after [N] requests to [/count_views], every bound is
    exceeded by some run, and an increment always yields the successor,
    which is strictly larger: there is no wrap-around. *)
Theorem counter_unbounded :
  (forall N : nat,
      counter (execState (serve (repeat GetCountViews N)) module_init)
      = Z.of_nat N)
  /\ (forall bound : Z,
         exists reqs : list Request,
           bound < counter (execState (serve reqs) module_init))
  /\ (forall g : Globals,
         counter (execState count_views g) = counter g + 1
         /\ counter g < counter (execState count_views g)).
Proof.
  repeat split.
  - intros N. rewrite serve_counter, count_requests_repeat. reflexivity.
  - intros bound. exists (repeat GetCountViews (S (Z.to_nat bound))).
    rewrite serve_counter, count_requests_repeat.
    cbn [counter module_init]. lia.
  - unfold execState. rewrite run_count_views. cbn [snd counter]. lia.
Qed.

End Counter.

(** ** The stateless routes *)

Section Stateless.

Variable render_template : string -> context -> string.

#[local] Abbreviation dispatch := (dispatch render_template).
#[local] Abbreviation serve := (serve render_template).
#[local] Abbreviation home := (home render_template).

(** C3: [home], [about], [date] and [name] leave the globals ([counter]
    and [cards]) as they found them, [count_views] does not, and
    [about] and [name] give the same body again after any requests
    served in between. *)
Theorem only_count_views_mutates :
  (forall g : Globals, execState home g = g)
  /\ (forall g : Globals, execState about g = g)
  /\ (forall (now : Py.datetime) (g : Globals), execState (date now) g = g)
  /\ (forall (segment : string) (g : Globals),
         execState (name segment) g = g)
  /\ (forall g : Globals, execState count_views g <> g)
  /\ (forall (reqs : list Request) (g : Globals),
         evalState about (execState (serve reqs) g) = evalState about g)
  /\ (forall (segment : string) (reqs : list Request) (g : Globals),
         evalState (name segment) (execState (serve reqs) g)
         = evalState (name segment) g).
Proof.
  repeat split.
  intros g H. apply (f_equal counter) in H.
  unfold execState in H. rewrite run_count_views in H.
  cbn [snd counter] in H. lia.
Qed.

(** C5: [name] returns "Hello ", the path segment as it is, and "!";
    for the segment "World" this is "Hello World!". *)
Theorem name_greeting :
  (forall (segment : string) (g : Globals),
      evalState (name segment) g = "Hello " ++ segment ++ "!")
  /\ (forall g : Globals, evalState (name "World") g = "Hello World!").
Proof. split; reflexivity. Qed.

(** C6: [about] returns its literal whatever the globals are, in
    particular after any sequence of requests. *)
Theorem about_literal :
  (forall g : Globals,
      evalState about g
      = "This is a simple mini project using Flask basics.")
  /\ (forall reqs : list Request,
         evalState (dispatch GetAbout) (execState (serve reqs) module_init)
         = "This is a simple mini project using Flask basics.").
Proof. split; reflexivity. Qed.

(** C7: whatever requests were served before, [cards] still is the list
    of the three cards (Hola, Hello), (Merci, Thanks), (Ciao, Bye) in
    this order, and [home] returns the page rendered from "home.html"
    with this list; no request changes [cards]. *)
Theorem home_cards :
  (forall reqs : list Request,
      cards (execState (serve reqs) module_init) = cards_literal)
  /\ (forall reqs : list Request,
         evalState home (execState (serve reqs) module_init)
         = render_template "home.html" [("cards", cards_literal)])
  /\ map card_pair cards_literal
     = [ (Some "Hola", Some "Hello");
         (Some "Merci", Some "Thanks");
         (Some "Ciao", Some "Bye") ]
  /\ (forall (r : Request) (g : Globals),
         cards (execState (dispatch r) g) = cards g).
Proof.
  split; [| split; [| split]].
  - intros reqs. apply serve_cards.
  - intros reqs. unfold evalState. rewrite run_home, serve_cards.
    reflexivity.
  - reflexivity.
  - apply dispatch_cards.
Qed.

(** C10: the bodies of [about] and [name] do not depend on the globals:
    for any two states of the globals [about] returns the same string,
    and so does [name] for the same path segment. *)
Theorem stateless_noninterference (g1 g2 : Globals) (segment : string) :
  evalState about g1 = evalState about g2
  /\ evalState (name segment) g1 = evalState (name segment) g2.
Proof. split; reflexivity. Qed.

End Stateless.

(** C1 at [N = 3], with a renderer that returns the empty page. *)
Lemma count_views_nth_invocation_witness :
  (1 <= 3)%nat
  /\ (length (evalState (serve (fun _ _ => "") (repeat GetCountViews 3))
                module_init) = 3%nat
      /\ nth_error (evalState (serve (fun _ _ => "") (repeat GetCountViews 3))
                      module_init) (3 - 1)
         = Some ("This page was viewed " ++ Py.str_int (Z.of_nat 3)
                 ++ " times.")
      /\ counter (execState (serve (fun _ _ => "") (repeat GetCountViews 3))
                    module_init) = Z.of_nat 3).
Proof.
  split; [lia | apply (count_views_nth_invocation (fun _ _ => "") 3); lia].
Defined.

(** ** Rendering of numbers and of the clock *)

Section Rendering.

Local Open Scope Z_scope.

Lemma to_int_proper (z : Z) :
  Z.to_int z <> Decimal.Pos Decimal.Nil
  /\ Z.to_int z <> Decimal.Neg Decimal.Nil.
Proof.
  destruct z as [| p | p]; simpl; split; try discriminate;
    intros [= H]; exact (DecimalPos.Unsigned.to_uint_nonnil p H).
Qed.

(** The decimal rendering tells integers apart. *)
Lemma str_int_inj (a b : Z) : Py.str_int a = Py.str_int b -> a = b.
Proof.
  unfold Py.str_int. intros H.
  apply (f_equal NilZero.int_of_string) in H.
  destruct (to_int_proper a) as [Ha1 Ha2].
  destruct (to_int_proper b) as [Hb1 Hb2].
  rewrite !NilZero.isi in H by assumption.
  injection H as H. now apply DecimalZ.to_int_inj.
Qed.

Lemma length_append (x y : string) :
  String.length (x ++ y) = (String.length x + String.length y)%nat.
Proof. induction x as [| c x IH]; simpl; [reflexivity | now rewrite IH]. Qed.

Lemma append_cancel_l (s x y : string) : s ++ x = s ++ y -> x = y.
Proof.
  induction s as [| c s IH]; simpl; intros H; [assumption |].
  injection H as H. now apply IH.
Qed.

Lemma append_cancel_r (s x y : string) : x ++ s = y ++ s -> x = y.
Proof.
  revert y. induction x as [| c x IH]; intros [| d y] H; simpl in H.
  - reflexivity.
  - apply (f_equal String.length) in H. simpl in H.
    rewrite length_append in H. lia.
  - apply (f_equal String.length) in H. simpl in H.
    rewrite length_append in H. lia.
  - injection H as Hc H. subst d. f_equal. now apply IH.
Qed.

(** X2: the body of [count_views] determines the value of the counter
    it was built from: two bodies are equal only for equal counts. *)
Theorem views_message_inj (a b : Z) :
  views_message a = views_message b <-> a = b.
Proof.
  split; [| now intros ->].
  unfold views_message. intros H.
  apply append_cancel_l, append_cancel_r in H. now apply str_int_inj.
Qed.

End Rendering.

Example name_no_escaping (g : Globals) :
  evalState (name "<b>a&b</b>") g = "Hello <b>a&b</b>!".
Proof. reflexivity. Qed.

Example date_at_noon :
  evalState (date (Py.mk_datetime 2026 11 4 12 0 0 0 false)) module_init
  = "Current server time: 2026-11-04 12:00:00".
Proof. reflexivity. Qed.

(** ** Runs with mixed requests *)

Section Runs.

Variable render_template : string -> context -> string.

Local Open Scope Z_scope.

#[local] Abbreviation dispatch := (dispatch render_template).
#[local] Abbreviation serve := (serve render_template).

(** The globals after a run, in closed form. *)
Lemma exec_serve_closed (reqs : list Request) (g : Globals) :
  execState (serve reqs) g
  = {| counter := counter g + count_requests reqs; cards := cards g |}.
Proof.
  pose proof (serve_counter render_template reqs g) as Hc.
  pose proof (serve_cards render_template reqs g) as Hk.
  destruct (execState (serve reqs) g) as [c k].
  cbn [counter cards] in Hc, Hk. now subst.
Qed.

(** The body of the request at position [i] of a run. *)
Lemma eval_serve_nth (reqs : list Request) (g : Globals) (i : nat)
    (r : Request) :
  nth_error reqs i = Some r ->
  nth_error (evalState (serve reqs) g) i
  = Some (evalState (dispatch r)
            {| counter := counter g + count_requests (firstn i reqs);
               cards := cards g |}).
Proof.
  revert g i. induction reqs as [| r0 reqs IH]; intros g i Hi.
  - now destruct i.
  - rewrite eval_serve_cons. destruct i as [| i].
    + injection Hi as ->. cbn [nth_error firstn count_requests].
      rewrite Z.add_0_r. now destruct g.
    + cbn [nth_error] in *. rewrite (IH _ _ Hi).
      cbn [firstn]. rewrite (count_requests_cons r0 (firstn i reqs)).
      rewrite dispatch_counter, dispatch_cards.
      now rewrite Z.add_assoc.
Qed.

Lemma count_requests_perm (reqs reqs' : list Request) :
  Permutation reqs reqs' -> count_requests reqs = count_requests reqs'.
Proof.
  induction 1 as [| r l l' _ IH | r1 r2 l | l l' l'' _ IH1 _ IH2].
  - reflexivity.
  - rewrite (count_requests_cons r l), (count_requests_cons r l'). lia.
  - rewrite (count_requests_cons r2 (r1 :: l)), (count_requests_cons r1 l),
      (count_requests_cons r1 (r2 :: l)), (count_requests_cons r2 l). lia.
  - congruence.
Qed.

(** A later position has seen every [/count_views] request of an earlier
    one, and that request itself. *)
Lemma count_requests_firstn_lt (reqs : list Request) (i j : nat) :
  (i < j)%nat ->
  nth_error reqs i = Some GetCountViews ->
  count_requests (firstn i reqs) + 1 <= count_requests (firstn j reqs).
Proof.
  revert i j. induction reqs as [| r reqs IH]; intros i j Hij Hi.
  - now destruct i.
  - destruct j as [| j]; [lia |]. destruct i as [| i].
    + injection Hi as ->. cbn [firstn count_requests].
      pose proof (count_requests_nonneg (firstn j reqs)). lia.
    + cbn [nth_error] in Hi. cbn [firstn].
      rewrite (count_requests_cons r (firstn i reqs)),
        (count_requests_cons r (firstn j reqs)).
      specialize (IH i j ltac:(lia) Hi). lia.
Qed.

(** X3: in a run of mixed requests, the body of each request is what
    its handler returns on globals whose counter is the initial counter
    plus the number of [/count_views] requests served before it, with
    [cards] untouched.  In particular, from the freshly loaded module a
    [/count_views] request reports one more than the number of
    [/count_views] requests before it, whatever other requests were
    served in between. *)
Theorem serve_body_at :
  (forall (reqs1 reqs2 : list Request) (r : Request) (g : Globals),
      nth_error (evalState (serve (reqs1 ++ r :: reqs2)) g) (length reqs1)
      = Some (evalState (dispatch r)
                {| counter := counter g + count_requests reqs1;
                   cards := cards g |}))
  /\ (forall reqs1 reqs2 : list Request,
         nth_error
           (evalState (serve (reqs1 ++ GetCountViews :: reqs2)) module_init)
           (length reqs1)
         = Some (views_message (count_requests reqs1 + 1))).
Proof.
  assert (H : forall reqs1 reqs2 r g,
             nth_error (evalState (serve (reqs1 ++ r :: reqs2)) g)
               (length reqs1)
             = Some (evalState (dispatch r)
                       {| counter := counter g + count_requests reqs1;
                          cards := cards g |})).
  { intros reqs1 reqs2 r g.
    rewrite (eval_serve_nth _ g (length reqs1) r).
    - rewrite firstn_app, Nat.sub_diag, firstn_all. cbn [firstn].
      now rewrite app_nil_r.
    - rewrite nth_error_app2, Nat.sub_diag by lia. reflexivity. }
  split; [exact H |].
  intros reqs1 reqs2. rewrite H. reflexivity.
Qed.

(** X4: the globals a run leaves do not depend on the order in which its
    requests were served. *)
Theorem serve_order_irrelevant (reqs reqs' : list Request) (g : Globals) :
  Permutation reqs reqs' ->
  execState (serve reqs) g = execState (serve reqs') g.
Proof.
  intros H. rewrite !exec_serve_closed.
  now rewrite (count_requests_perm _ _ H).
Qed.

(** X5: two different [/count_views] requests of one run never get the
    same body, whatever the initial counter and the other requests: the
    later one reports a strictly larger count. *)
Theorem count_views_bodies_distinct (reqs : list Request) (g : Globals)
    (i j : nat) (bi bj : string) :
  (i < j)%nat ->
  nth_error reqs i = Some GetCountViews ->
  nth_error reqs j = Some GetCountViews ->
  nth_error (evalState (serve reqs) g) i = Some bi ->
  nth_error (evalState (serve reqs) g) j = Some bj ->
  bi <> bj
  /\ exists ni nj : Z,
       bi = views_message ni /\ bj = views_message nj /\ ni < nj.
Proof.
  intros Hij Hi Hj Hbi Hbj.
  rewrite (eval_serve_nth _ g i _ Hi) in Hbi.
  rewrite (eval_serve_nth _ g j _ Hj) in Hbj.
  injection Hbi as <-. injection Hbj as <-.
  pose proof (count_requests_firstn_lt reqs i j Hij Hi) as Hlt.
  split.
  - intros Heq. unfold views_message in Heq.
    apply append_cancel_l, append_cancel_r, str_int_inj in Heq.
    cbn [counter cards] in Heq. lia.
  - exists (counter g + count_requests (firstn i reqs) + 1),
      (counter g + count_requests (firstn j reqs) + 1).
    split; [reflexivity | split; [reflexivity | lia]].
Qed.

End Runs.

(** X4 for a run of three requests served in two orders. *)
Lemma serve_order_irrelevant_witness :
  Permutation [GetAbout; GetCountViews; GetHello "a"]
              [GetCountViews; GetHello "a"; GetAbout]
  /\ execState (serve (fun _ _ => "")
                  [GetAbout; GetCountViews; GetHello "a"]) module_init
     = execState (serve (fun _ _ => "")
                    [GetCountViews; GetHello "a"; GetAbout]) module_init.
Proof.
  assert (P : Permutation [GetAbout; GetCountViews; GetHello "a"]
                          [GetCountViews; GetHello "a"; GetAbout]).
  { apply (Permutation_cons_app [GetCountViews; GetHello "a"] []).
    rewrite app_nil_r. apply Permutation_refl. }
  split; [exact P | exact (serve_order_irrelevant (fun _ _ => "") _ _ _ P)].
Defined.

(** X5 for the first and the third request of a run of three. *)
Lemma count_views_bodies_distinct_witness :
  (0 < 2)%nat
  /\ nth_error [GetCountViews; GetAbout; GetCountViews] 0
     = Some GetCountViews
  /\ nth_error [GetCountViews; GetAbout; GetCountViews] 2
     = Some GetCountViews
  /\ nth_error (evalState (serve (fun _ _ => "")
                             [GetCountViews; GetAbout; GetCountViews])
                  module_init) 0
     = Some "This page was viewed 1 times."
  /\ nth_error (evalState (serve (fun _ _ => "")
                             [GetCountViews; GetAbout; GetCountViews])
                  module_init) 2
     = Some "This page was viewed 2 times."
  /\ ("This page was viewed 1 times." <> "This page was viewed 2 times."
      /\ exists ni nj : Z,
           "This page was viewed 1 times." = views_message ni
           /\ "This page was viewed 2 times." = views_message nj
           /\ (ni < nj)%Z).
Proof.
  repeat (split; [first [lia | reflexivity] |]).
  apply (count_views_bodies_distinct (fun _ _ => "")
           [GetCountViews; GetAbout; GetCountViews] module_init 0 2);
    first [lia | reflexivity].
Defined.

(** ** Reading a body back *)

Section Recovery.

Local Open Scope Z_scope.

Lemma substring_append_exact (s t : string) :
  substring 0 (String.length s) (s ++ t) = s.
Proof.
  induction s as [| c s IH]; simpl.
  - now destruct t.
  - now rewrite IH.
Qed.

Lemma substring_middle (p s t : string) :
  substring (String.length p) (String.length s) (p ++ s ++ t) = s.
Proof.
  induction p as [| c p IH]; simpl.
  - apply substring_append_exact.
  - exact IH.
Qed.

(** Parsing the decimal rendering of an integer gives the integer. *)
Lemma str_int_parse (n : Z) :
  option_map Z.of_int (NilZero.int_of_string (Py.str_int n)) = Some n.
Proof.
  unfold Py.str_int. destruct (to_int_proper n) as [H1 H2].
  rewrite NilZero.isi by assumption. simpl. now rewrite DecimalZ.of_to.
Qed.

(** X6: the greeting contains the path segment unchanged, between the
    six characters of "Hello " and the final "!": it is seven characters
    longer than the segment, the segment can be cut out of it again, and
    two greetings are equal only for equal segments. *)
Theorem name_reflects_segment :
  (forall (segment : string) (g : Globals),
      String.length (evalState (name segment) g)
      = (String.length segment + 7)%nat
      /\ substring 6 (String.length segment) (evalState (name segment) g)
         = segment)
  /\ (forall (a b : string) (g g' : Globals),
         evalState (name a) g = evalState (name b) g' <-> a = b).
Proof.
  split.
  - intros segment g.
    change (evalState (name segment) g) with ("Hello " ++ segment ++ "!").
    split.
    + rewrite !length_append. simpl. lia.
    + exact (substring_middle "Hello " segment "!").
  - intros a b g g'. split; [| now intros ->].
    change (evalState (name a) g) with ("Hello " ++ a ++ "!").
    change (evalState (name b) g') with ("Hello " ++ b ++ "!").
    intros H. now apply append_cancel_l, append_cancel_r in H.
Qed.

(** X7: the count can be read back from the body of [count_views]:
    dropping the 21 characters before the number and the 7 after it and
    parsing what is left as a decimal number gives the incremented
    counter. *)
Theorem count_views_parse (g : Globals) :
  option_map Z.of_int
    (NilZero.int_of_string
       (substring 21 (String.length (evalState count_views g) - 28)
          (evalState count_views g)))
  = Some (counter g + 1).
Proof.
  unfold evalState. rewrite run_count_views. cbn [fst].
  unfold views_message.
  set (s := Py.str_int (counter g + 1)).
  replace (String.length ("This page was viewed " ++ s ++ " times.") - 28)%nat
    with (String.length s).
  - pose proof (substring_middle "This page was viewed " s " times.") as E.
    change (String.length "This page was viewed ") with 21%nat in E.
    rewrite E. apply str_int_parse.
  - rewrite !length_append.
    change (String.length "This page was viewed ") with 21%nat.
    change (String.length " times.") with 7%nat. lia.
Qed.

End Recovery.

(** ** The width of decimal renderings *)

Section Digits.

Local Open Scope Z_scope.

Lemma string_of_uint_length (d : Decimal.uint) :
  String.length (NilEmpty.string_of_uint d) = Decimal.nb_digits d.
Proof. induction d; simpl; congruence. Qed.

(** Reading the digits [d] after the digits of [acc] appends them. *)
Lemma of_uint_acc_bounds (d : Decimal.uint) (acc : positive) :
  Z.pos acc * 10 ^ Z.of_nat (Decimal.nb_digits d)
  <= Z.pos (Pos.of_uint_acc d acc)
  < (Z.pos acc + 1) * 10 ^ Z.of_nat (Decimal.nb_digits d).
Proof.
  revert acc. induction d as [| d IH | d IH | d IH | d IH | d IH | d IH
                              | d IH | d IH | d IH | d IH]; intros acc;
    cbn [Pos.of_uint_acc Decimal.nb_digits].
  1: { rewrite Z.pow_0_r. lia. }
  all: rewrite Nat2Z.inj_succ, Z.pow_succ_r by lia.
  all: match goal with
       | |- context [Pos.of_uint_acc _ ?a] => specialize (IH a)
       end.
  all: assert (0 < 10 ^ Z.of_nat (Decimal.nb_digits d))
         by (apply Z.pow_pos_nonneg; lia).
  all: nia.
Qed.

(** The rendering of a positive number has no leading zero, so a
    number with [k] digits is at least [10 ^ (k - 1)]. *)
Lemma to_uint_digits_lower (p : positive) :
  10 ^ Z.of_nat (Nat.pred (Decimal.nb_digits (Pos.to_uint p))) <= Z.pos p.
Proof.
  pose proof (DecimalPos.Unsigned.of_to p) as Hof.
  pose proof (DecimalPos.Unsigned.to_of (Pos.to_uint p)) as Hnorm.
  rewrite Hof in Hnorm. cbn [N.to_uint] in Hnorm.
  pose proof (DecimalPos.Unsigned.to_uint_nonnil p) as Hnil.
  pose proof (DecimalPos.Unsigned.to_uint_nonzero p) as Hzero.
  destruct (Pos.to_uint p) as [| l | l | l | l | l | l | l | l | l | l].
  1: now elim Hnil.
  1: { exfalso. unfold Decimal.unorm in Hnorm.
       cbn [Decimal.nzhead] in Hnorm.
       pose proof (DecimalFacts.nb_digits_nzhead l) as Hle.
       destruct (Decimal.nzhead l) eqn:E; try discriminate Hnorm.
       - apply Hzero. exact Hnorm.
       - injection Hnorm as ->. cbn [Decimal.nb_digits] in Hle. lia. }
  all: cbn [Pos.of_uint] in Hof; injection Hof as Hof;
    cbn [Decimal.nb_digits Nat.pred];
    match type of Hof with
    | Pos.of_uint_acc _ ?a = _ => pose proof (of_uint_acc_bounds l a) as B
    end;
    rewrite Hof in B;
    assert (0 < 10 ^ Z.of_nat (Decimal.nb_digits l))
      by (apply Z.pow_pos_nonneg; lia);
    nia.
Qed.

Lemma to_uint_digits (p : positive) (w : nat) :
  Z.pos p < 10 ^ Z.of_nat w ->
  (Decimal.nb_digits (Pos.to_uint p) <= w)%nat.
Proof.
  intros Hp. pose proof (to_uint_digits_lower p) as Hlow.
  destruct (Nat.le_gt_cases (Decimal.nb_digits (Pos.to_uint p)) w)
    as [H | H]; [exact H | exfalso].
  assert (10 ^ Z.of_nat w
          <= 10 ^ Z.of_nat (Nat.pred (Decimal.nb_digits (Pos.to_uint p))))
    by (apply Z.pow_le_mono_r; lia).
  lia.
Qed.

(** A natural number below [10 ^ w] is written with at most [w]
    digits. *)
Lemma str_int_nat_length (n w : nat) :
  (1 <= w)%nat ->
  Z.of_nat n < 10 ^ Z.of_nat w ->
  (String.length (Py.str_int (Z.of_nat n)) <= w)%nat.
Proof.
  intros Hw Hn. unfold Py.str_int.
  destruct (Z.of_nat n) as [| p | p] eqn:E.
  - exact Hw.
  - cbn [Z.to_int NilZero.string_of_int].
    pose proof (DecimalPos.Unsigned.to_uint_nonnil p) as Hnil.
    pose proof (to_uint_digits p w Hn) as Hd.
    rewrite <- string_of_uint_length in Hd.
    unfold NilZero.string_of_uint.
    destruct (Pos.to_uint p); [now elim Hnil | exact Hd ..].
  - lia.
Qed.

Lemma zeros_length (k : nat) : String.length (Py.zeros k) = k.
Proof. induction k as [| k IH]; simpl; congruence. Qed.

Lemma fmt_d_length (w n : nat) :
  (1 <= w)%nat ->
  Z.of_nat n < 10 ^ Z.of_nat w ->
  String.length (Py.fmt_d w n) = w.
Proof.
  intros Hw Hn. unfold Py.fmt_d, Py.zfill.
  pose proof (str_int_nat_length n w Hw Hn).
  rewrite length_append, zeros_length. lia.
Qed.

End Digits.

(** ** The digit limit of the conversion in [count_views] *)

Section Limit.

Local Open Scope Z_scope.











End Limit.



(** ** The body of [date] *)

Section Clock.

Local Open Scope Z_scope.

Lemma uint_of_string_zeros (k : nat) (s : string) :
  NilEmpty.uint_of_string (Py.zeros k ++ s)
  = option_map (Nat.iter k Decimal.D0) (NilEmpty.uint_of_string s).
Proof.
  induction k as [| k IH].
  - simpl. now destruct (NilEmpty.uint_of_string s).
  - cbn [Py.zeros append NilEmpty.uint_of_string]. rewrite IH.
    now destruct (NilEmpty.uint_of_string s).
Qed.

Lemma of_uint_iter_D0 (k : nat) (d : Decimal.uint) :
  Pos.of_uint (Nat.iter k Decimal.D0 d) = Pos.of_uint d.
Proof. induction k as [| k IH]; [reflexivity | exact IH]. Qed.

Lemma str_int_nat_uint (n : nat) :
  Py.str_int (Z.of_nat n)
  = NilEmpty.string_of_uint (N.to_uint (N.of_nat n)).
Proof.
  destruct n as [| n]; [reflexivity |].
  unfold Py.str_int.
  cbn [Z.of_nat N.of_nat Z.to_int N.to_uint NilZero.string_of_int].
  pose proof (DecimalPos.Unsigned.to_uint_nonnil (Pos.of_succ_nat n)) as Hnil.
  unfold NilZero.string_of_uint.
  destruct (Pos.to_uint (Pos.of_succ_nat n)); [now elim Hnil | reflexivity ..].
Qed.

(** Reading a zero-padded field as a number gives the number back. *)
Lemma fmt_d_value (w n : nat) :
  option_map Pos.of_uint (NilEmpty.uint_of_string (Py.fmt_d w n))
  = Some (N.of_nat n).
Proof.
  unfold Py.fmt_d, Py.zfill.
  rewrite str_int_nat_uint, uint_of_string_zeros, NilEmpty.usu.
  cbn [option_map]. rewrite of_uint_iter_D0.
  f_equal. apply DecimalN.Unsigned.of_to.
Qed.

Lemma fmt_d_inj (w n m : nat) : Py.fmt_d w n = Py.fmt_d w m -> n = m.
Proof.
  intros H.
  apply (f_equal (fun s => option_map Pos.of_uint (NilEmpty.uint_of_string s)))
    in H.
  rewrite !fmt_d_value in H. injection H as H. lia.
Qed.

Lemma append_eq_split (a a' x x' : string) :
  String.length a = String.length a' ->
  a ++ x = a' ++ x' -> a = a' /\ x = x'.
Proof.
  revert a'. induction a as [| c a IH]; intros [| c' a'] Hlen H;
    try discriminate Hlen.
  - now split.
  - simpl in H. injection H as -> H. injection Hlen as Hlen.
    destruct (IH a' Hlen H) as [-> ->]. now split.
Qed.

(** The field ranges of a [datetime], as inequalities. *)
Lemma datetime_ok_ranges (dt : Py.datetime) :
  Py.datetime_ok dt = true ->
  Z.of_nat (Py.year dt) < 10 ^ Z.of_nat 4
  /\ Z.of_nat (Py.month dt) < 10 ^ Z.of_nat 2
  /\ Z.of_nat (Py.day dt) < 10 ^ Z.of_nat 2
  /\ Z.of_nat (Py.hour dt) < 10 ^ Z.of_nat 2
  /\ Z.of_nat (Py.minute dt) < 10 ^ Z.of_nat 2
  /\ Z.of_nat (Py.second dt) < 10 ^ Z.of_nat 2
  /\ Z.of_nat (Py.microsecond dt) < 10 ^ Z.of_nat 6.
Proof.
  unfold Py.datetime_ok. rewrite !Bool.andb_true_iff, !Z.leb_le.
  change (10 ^ Z.of_nat 4) with 10000.
  change (10 ^ Z.of_nat 2) with 100.
  change (10 ^ Z.of_nat 6) with 1000000.
  lia.
Qed.

(** The date and time fields of [str(dt)], without the microseconds,
    take 19 characters. *)
Lemma str_datetime_length (dt : Py.datetime) :
  Py.datetime_ok dt = true ->
  String.length (Py.str_datetime dt)
  = if Nat.eqb (Py.microsecond dt) 0 then 19%nat else 26%nat.
Proof.
  intros Hok.
  destruct (datetime_ok_ranges dt Hok) as (Hy & Hm & Hd & Hh & Hmi & Hs & Hu).
  unfold Py.str_datetime. rewrite !length_append.
  rewrite (fmt_d_length 4 _ ltac:(lia) Hy), (fmt_d_length 2 _ ltac:(lia) Hm),
    (fmt_d_length 2 _ ltac:(lia) Hd), (fmt_d_length 2 _ ltac:(lia) Hh),
    (fmt_d_length 2 _ ltac:(lia) Hmi), (fmt_d_length 2 _ ltac:(lia) Hs).
  destruct (Nat.eqb (Py.microsecond dt) 0).
  - reflexivity.
  - rewrite length_append, (fmt_d_length 6 _ ltac:(lia) Hu). reflexivity.
Qed.

(** X8: for a clock reading within the ranges of [datetime], the body
    of [date] has 40 characters when the microseconds are zero, because
    the fraction is then left out, and 47 characters otherwise. *)
Theorem date_body_length (now : Py.datetime) (g : Globals) :
  Py.datetime_ok now = true ->
  String.length (evalState (date now) g)
  = if Nat.eqb (Py.microsecond now) 0 then 40%nat else 47%nat.
Proof.
  intros Hok.
  change (evalState (date now) g)
    with ("Current server time: " ++ Py.str_datetime now).
  rewrite length_append, (str_datetime_length now Hok).
  now destruct (Nat.eqb (Py.microsecond now) 0).
Qed.

(** X9: the body of [date] determines every field of the clock reading
    except [fold], and nothing more: two readings within the ranges of
    [datetime] give the same body exactly when they agree on the year,
    month, day, hour, minute, second and microsecond.  The two passes
    through a repeated wall-clock hour, which differ in [fold] only,
    give the same body. *)
Theorem date_body_fields (a b : Py.datetime) (g g' : Globals) :
  Py.datetime_ok a = true ->
  Py.datetime_ok b = true ->
  (evalState (date a) g = evalState (date b) g'
   <-> Py.year a = Py.year b /\ Py.month a = Py.month b
       /\ Py.day a = Py.day b /\ Py.hour a = Py.hour b
       /\ Py.minute a = Py.minute b /\ Py.second a = Py.second b
       /\ Py.microsecond a = Py.microsecond b).
Proof.
  intros Ha Hb.
  change (evalState (date a) g)
    with ("Current server time: " ++ Py.str_datetime a).
  change (evalState (date b) g')
    with ("Current server time: " ++ Py.str_datetime b).
  split.
  2: { intros (Ey & Em & Ed & Eh & Emi & Es & Eu).
       unfold Py.str_datetime.
       now rewrite Ey, Em, Ed, Eh, Emi, Es, Eu. }
  intros H. apply append_cancel_l in H.
  destruct (datetime_ok_ranges a Ha) as (Ay & Am & Ad & Ah & Ami & As & Au).
  destruct (datetime_ok_ranges b Hb) as (By & Bm & Bd & Bh & Bmi & Bs & Bu).
  unfold Py.str_datetime in H.
  apply append_eq_split in H;
    [| now rewrite !fmt_d_length by (assumption || lia)].
  destruct H as [Ey H]. apply (append_cancel_l "-") in H.
  apply append_eq_split in H;
    [| now rewrite !fmt_d_length by (assumption || lia)].
  destruct H as [Em H]. apply (append_cancel_l "-") in H.
  apply append_eq_split in H;
    [| now rewrite !fmt_d_length by (assumption || lia)].
  destruct H as [Ed H]. apply (append_cancel_l " ") in H.
  apply append_eq_split in H;
    [| now rewrite !fmt_d_length by (assumption || lia)].
  destruct H as [Eh H]. apply (append_cancel_l ":") in H.
  apply append_eq_split in H;
    [| now rewrite !fmt_d_length by (assumption || lia)].
  destruct H as [Emi H]. apply (append_cancel_l ":") in H.
  apply append_eq_split in H;
    [| now rewrite !fmt_d_length by (assumption || lia)].
  destruct H as [Es H].
  apply fmt_d_inj in Ey, Em, Ed, Eh, Emi, Es.
  assert (Eu : Py.microsecond a = Py.microsecond b).
  { destruct (Nat.eqb_spec (Py.microsecond a) 0) as [Za | Za],
      (Nat.eqb_spec (Py.microsecond b) 0) as [Zb | Zb].
    - congruence.
    - discriminate H.
    - discriminate H.
    - apply (append_cancel_l ".") in H. now apply fmt_d_inj in H. }
  repeat split; assumption.
Qed.

End Clock.

(** X8 at noon sharp, where the fraction is left out. *)
Lemma date_body_length_witness :
  Py.datetime_ok (Py.mk_datetime 2026 11 4 12 0 0 0 false) = true
  /\ String.length
       (evalState (date (Py.mk_datetime 2026 11 4 12 0 0 0 false)) module_init)
     = 40%nat.
Proof.
  split; [reflexivity |].
  apply (date_body_length (Py.mk_datetime 2026 11 4 12 0 0 0 false) module_init).
  reflexivity.
Defined.

(** X9 for the two passes through 02:30 in a night when the clock is
    set back from 03:00 to 02:00: the readings differ in [fold], their
    bodies do not. *)
Lemma date_body_fields_witness :
  Py.datetime_ok (Py.mk_datetime 2026 10 25 2 30 0 0 false) = true
  /\ Py.datetime_ok (Py.mk_datetime 2026 10 25 2 30 0 0 true) = true
  /\ (evalState (date (Py.mk_datetime 2026 10 25 2 30 0 0 false)) module_init
      = evalState (date (Py.mk_datetime 2026 10 25 2 30 0 0 true)) module_init
      <-> 2026%nat = 2026%nat /\ 10%nat = 10%nat /\ 25%nat = 25%nat
          /\ 2%nat = 2%nat /\ 30%nat = 30%nat /\ 0%nat = 0%nat
          /\ 0%nat = 0%nat).
Proof.
  split; [reflexivity | split; [reflexivity |]].
  apply (date_body_fields (Py.mk_datetime 2026 10 25 2 30 0 0 false)
           (Py.mk_datetime 2026 10 25 2 30 0 0 true) module_init module_init);
    reflexivity.
Defined.
